(** * VIRGIL backend: the thinking engine (brain.py) and the
      persistence layer (main.py), embedded and verified.

    Conventions of the embedding.

    - A Python [str] is represented by its UTF-8 encoding, a [string] of
      bytes.  UTF-8 is self-synchronising, so the substring test [x in m]
      and [m.endswith(x)] on code points coincide with the same tests on
      the encodings.
    - [str.strip], [str.lower] and [str.upper] belong to the Python
      runtime (their behaviour is given by the Unicode tables), not to
      the repository.  They are taken through the class [StrOps]; every
      theorem about the rule engines holds for any instance.
      [ascii_ops] is an instance that agrees with Python on ASCII text
      and is used to run examples.
    - A raised exception is a value [Raise e] of the type [result].
    - The remote service, the database driver and the clock are the
      environment: the code is run against every behaviour of them. *)

From Stdlib Require Import String Ascii List ZArith Bool Lia Arith.
From Stdlib Require Import Floats.PrimFloat.
Import ListNotations.
Open Scope string_scope.

(** ** Exceptions and results *)

Inductive exn : Type :=
| AttributeError      (* [.get] on a value that is not a dict *)
| OperationalError    (* psycopg2: connection or I/O failure *)
| ProgrammingError    (* psycopg2: undefined table *)
| DataError.          (* psycopg2: invalid value, as a negative LIMIT *)

Inductive result (A : Type) : Type :=
| Ok (a : A)
| Raise (e : exn).
Arguments Ok {A} a.
Arguments Raise {A} e.

Definition returns_normally {A : Type} (r : result A) : Prop :=
  exists a, r = Ok a.

(** ** Python string operations used by the sources *)

Module Text.

(** [needle in hay] *)
Fixpoint contains (needle hay : string) : bool :=
  String.prefix needle hay
  || match hay with
     | EmptyString => false
     | String _ rest => contains needle rest
     end.

(** [s.endswith(suffix)] *)
Fixpoint endswith (s suffix : string) : bool :=
  String.eqb s suffix
  || match s with
     | EmptyString => false
     | String _ rest => endswith rest suffix
     end.

(** [any(t in m for t in terms)] *)
Definition any_in (terms : list string) (m : string) : bool :=
  existsb (fun t => contains t m) terms.

(** [x in (t1, ..., tn)] for strings *)
Definition member (x : string) (terms : list string) : bool :=
  existsb (String.eqb x) terms.

(** [user_message or ""]: [None] and the empty string both give [""]. *)
Definition or_empty (user_message : option string) : string :=
  match user_message with
  | Some s => s
  | None => ""
  end.

(** The line feed, and [s.replace("\n", " ")]. *)
Definition LF : ascii := ascii_of_nat 10.

Fixpoint replace_newlines (s : string) : string :=
  match s with
  | EmptyString => EmptyString
  | String c rest =>
      String (if Ascii.eqb c LF then " "%char else c) (replace_newlines rest)
  end.

(** [sep.join(parts)] *)
Fixpoint join (sep : string) (parts : list string) : string :=
  match parts with
  | [] => ""
  | [part] => part
  | part :: rest => part ++ sep ++ join sep rest
  end.

(** The runtime string methods the sources call. *)
Class StrOps : Type := {
  str_strip : string -> string;
  str_lower : string -> string;
  str_upper : string -> string
}.

(** An instance exact on ASCII text. *)
Definition ascii_is_space (c : ascii) : bool :=
  let n := nat_of_ascii c in
  (Nat.leb 9 n && Nat.leb n 13) || (Nat.leb 28 n && Nat.leb n 32).

Fixpoint lstrip (s : string) : string :=
  match s with
  | EmptyString => EmptyString
  | String c rest => if ascii_is_space c then lstrip rest else s
  end.

Fixpoint rstrip (s : string) : string :=
  match s with
  | EmptyString => EmptyString
  | String c rest =>
      match rstrip rest with
      | EmptyString => if ascii_is_space c then EmptyString
                       else String c EmptyString
      | kept => String c kept
      end
  end.

Definition ascii_lower_char (c : ascii) : ascii :=
  let n := nat_of_ascii c in
  if Nat.leb 65 n && Nat.leb n 90 then ascii_of_nat (n + 32) else c.

Fixpoint ascii_lower (s : string) : string :=
  match s with
  | EmptyString => EmptyString
  | String c rest => String (ascii_lower_char c) (ascii_lower rest)
  end.

Definition ascii_upper_char (c : ascii) : ascii :=
  let n := nat_of_ascii c in
  if Nat.leb 97 n && Nat.leb n 122 then ascii_of_nat (n - 32) else c.

Fixpoint ascii_upper (s : string) : string :=
  match s with
  | EmptyString => EmptyString
  | String c rest => String (ascii_upper_char c) (ascii_upper rest)
  end.

Definition ascii_ops : StrOps :=
  {| str_strip := fun s => rstrip (lstrip s);
     str_lower := ascii_lower;
     str_upper := ascii_upper |}.

(** [l[start:]] on a list *)
Definition slice_from {A : Type} (start : Z) (l : list A) : list A :=
  let len := Z.of_nat (length l) in
  let i := if (start <? 0)%Z then Z.max 0 (len + start)
           else Z.min start len in
  skipn (Z.to_nat i) l.

(** [l[-limit:]] *)
Definition last_slice {A : Type} (limit : Z) (l : list A) : list A :=
  slice_from (- limit) l.

End Text.
Export Text.

(** ** JSON values as produced by [json.loads] *)

Module Json.

(** A parsed object is a Python dict: the association list holds each
    key once, and [dict_get] returns the value bound to the key. *)
#[warnings="-register-all"]
Inductive json : Type :=
| JNull
| JBool (b : bool)
| JInt (n : Z)
| JFloat (f : float)
| JStr (s : string)
| JArr (items : list json)
| JObj (fields : list (string * json)).

(** [bool(v)] *)
Definition truthy (v : json) : bool :=
  match v with
  | JNull => false
  | JBool b => b
  | JInt n => negb (Z.eqb n 0)
  | JFloat f => negb (PrimFloat.eqb f 0%float)
  | JStr s => negb (String.eqb s "")
  | JArr items => match items with [] => false | _ :: _ => true end
  | JObj fields => match fields with [] => false | _ :: _ => true end
  end.

Fixpoint dict_get (fields : list (string * json)) (key : string)
  : option json :=
  match fields with
  | [] => None
  | (k, v) :: rest => if String.eqb k key then Some v else dict_get rest key
  end.

(** [data.get(key, default)]; raises [AttributeError] unless [data] is a
    dict (lists, strings, numbers, booleans and [None] have no [get]). *)
Definition get (data : json) (key : string) (default : json)
  : result json :=
  match data with
  | JObj fields =>
      Ok (match dict_get fields key with Some v => v | None => default end)
  | _ => Raise AttributeError
  end.

(** [repr] of a value that is not a string is the runtime's business. *)
Class Repr : Type := { py_repr : json -> string }.

(** [str(v)] *)
Definition py_str `{Repr} (v : json) : string :=
  match v with
  | JStr s => s
  | _ => py_repr v
  end.

(** An instance for running examples whose payloads hold only strings,
    booleans and [None]. *)
Definition atom_repr : Repr :=
  {| py_repr := fun v =>
       match v with
       | JNull => "None"
       | JBool true => "True"
       | JBool false => "False"
       | _ => "<repr>"
       end |}.

End Json.
Export Json.

(** ** brain.py *)

Module Brain.

(** The tuple [(reply, mood, alert, spark, sources)] returned by [think]. *)
Record decision : Type := mkDecision {
  reply : string;
  mood : string;
  alert : bool;
  spark : bool;
  sources : json
}.

Definition moods : list string :=
  ["idle"; "analyze"; "good"; "bad"; "notice"; "alert"; "done"].

(** The conditions tested by the rule engines, on the normalised text. *)
Definition minor_sexual (m : string) : bool :=
  contains "mineur" m
  && (contains "sex" m || contains "sexe" m || contains "explicit" m).

Definition insistent (m : string) : bool :=
  contains "??" m || contains "?!" m.

Definition greetings : list string :=
  ["bonjour"; "salut"; "coucou"; "hello"; "bonsoir"].

Definition wellbeing : list string :=
  ["comment ça va"; "comment ca va"; "ça va ?"; "ca va ?";
   "tu vas bien"; "vous allez bien"].

Definition thanks : list string := ["merci"; "thank you"; "thanks"].

Definition farewells : list string :=
  ["au revoir"; "bye"; "à bientôt"; "ciao"].

(** [m = (user_message or "").strip().lower()] *)
Definition normalise `{StrOps} (user_message : option string) : string :=
  str_lower (str_strip (or_empty user_message)).

(** Lines 72-118: the [if]/[elif] chain of the no-capability path. *)
Definition rules_single_pass (m : string) : decision :=
  if minor_sexual m then
    mkDecision "Désolé, sujet refusé. Incident consigné." "alert"
               true false (JArr [])
  else if insistent m then
    mkDecision "Demande insistante détectée." "notice" true true (JArr [])
  else if any_in greetings m then
    mkDecision "Bonjour ! Comment puis-je vous aider ?" "good"
               false false (JArr [])
  else if any_in wellbeing m then
    mkDecision "Je vais bien, merci ! Et toi ?" "good" false false (JArr [])
  else if any_in thanks m then
    mkDecision "Avec plaisir !" "good" false false (JArr [])
  else if any_in farewells m then
    mkDecision "Au revoir et à bientôt !" "good" false false (JArr [])
  else if endswith m "?" then
    mkDecision "Voici une réponse concise." "analyze" false true (JArr [])
  else
    mkDecision "Compris." "good" false false (JArr []).

(** Lines 155-166: three independent [if] statements, each assigning
    some of the four variables and leaving the others as they are. *)
Definition rules_two_pass (m : string) : decision :=
  let d0 := mkDecision "Compris." "good" false false (JArr []) in
  let d1 :=
    if endswith m "?" then
      mkDecision "Voici une réponse concise." "analyze" (alert d0) true
                 (JArr [])
    else d0 in
  let d2 :=
    if insistent m then
      mkDecision "Demande insistante détectée." "notice" true true (JArr [])
    else d1 in
  let d3 :=
    if minor_sexual m then
      mkDecision "Désolé, sujet refusé. Incident consigné." "alert" true
                 (spark d2) (JArr [])
    else d2 in
  d3.

(** Lines 144-152, on the value [data] that [json.loads] returned. *)
Definition normalize `{Repr} (data : json) : result decision :=
  match get data "reply" (JStr "Compris.") with
  | Raise e => Raise e
  | Ok r =>
  match get data "mood" (JStr "done") with
  | Raise e => Raise e
  | Ok mo =>
  match get data "alert" (JBool false) with
  | Raise e => Raise e
  | Ok al =>
  let mood0 := py_str mo in
  match get data "spark" (JBool (member mood0 ["analyze"; "notice"])) with
  | Raise e => Raise e
  | Ok sp =>
  match get data "sources" (JArr []) with
  | Raise e => Raise e
  | Ok so =>
      let sources0 := if truthy so then so else JArr [] in
      let mood1 := if negb (member mood0 moods) then "done" else mood0 in
      Ok (mkDecision (py_str r) mood1 (truthy al) (truthy sp) sources0)
  end end end end end.

(** The module-level configuration read by [think]. *)
Record config : Type := {
  USE_OPENAI : bool;
  OPENAI_API_KEY : option string;    (* [os.getenv("OPENAI_API_KEY")] *)
  VIRGIL_MODEL : option string       (* [os.getenv("VIRGIL_MODEL")] *)
}.

Definition MODEL (cfg : config) : string :=
  match VIRGIL_MODEL cfg with
  | Some name => name
  | None => "gpt-3.5-turbo-1106"
  end.

Definition SYSTEM : string :=
  "Tu es VIRGIL (Superintendent + 343 Guilty Spark, condescendance contrôlée). "
  ++ "Réponds en français, concis. Retourne STRICTEMENT un JSON: "
  ++ "{reply:str, mood:('idle'|'analyze'|'good'|'bad'|'notice'|'alert'|'done'), "
  ++ "alert:bool, spark:bool, sources:[{label,url}]}. "
  ++ "Règles: '?' -> analyze; '??'/'?!' -> notice+alert true; mineur+sexuel -> alert true + excuse. "
  ++ "Pas d'invention de sources.".

(** An entry of the history: a dict from strings to strings. *)
Definition turn : Type := list (string * string).

Fixpoint turn_get (h : turn) (key default : string) : string :=
  match h with
  | [] => default
  | (k, v) :: rest => if String.eqb k key then v else turn_get rest key default
  end.

Definition _fmt `{StrOps} (history : list turn) : string :=
  join (String LF "")
    (map (fun h =>
            let role := str_upper (turn_get h "role" "") in
            let content :=
              replace_newlines (str_strip (turn_get h "content" "")) in
            role ++ ": " ++ content)
         (last_slice 10 history)).

(** [not USE_OPENAI or not os.getenv("OPENAI_API_KEY")] *)
Definition no_capability (cfg : config) : bool :=
  negb (USE_OPENAI cfg)
  || negb (match OPENAI_API_KEY cfg with
           | Some k => negb (String.eqb k "")
           | None => false
           end).

(** What the [try] block observes of the remote service: either a
    statement up to and including [json.loads] raises, or [json.loads]
    returns a value. *)
Inductive remote_outcome : Type :=
| RemoteRaises
| RemoteParsed (data : json).

(** The service answers a model name, a system message and a user
    message. *)
Definition remote_service : Type :=
  string -> string -> string -> remote_outcome.

(** The f-string of line 130; [None] is formatted as "None". *)
Definition prompt `{StrOps} (user_message : option string)
  (history : list turn) : string :=
  "[HISTO]" ++ String LF "" ++ _fmt history ++ String LF (String LF "")
  ++ "[USER]" ++ String LF ""
  ++ match user_message with Some s => s | None => "None" end
  ++ String LF (String LF "") ++ "Rends un JSON strict.".

(** Lines 136-143 *)
Definition remote_call `{StrOps} (cfg : config) (remote : remote_service)
  (user_message : option string) (history : list turn) : remote_outcome :=
  remote (MODEL cfg) SYSTEM (prompt user_message history).

Definition think `{StrOps} `{Repr} (cfg : config) (remote : remote_service)
  (user_message : option string) (history : list turn) : decision :=
  if no_capability cfg then
    rules_single_pass (normalise user_message)
  else
    match remote_call cfg remote user_message history with
    | RemoteRaises => rules_two_pass (normalise user_message)
    | RemoteParsed data =>
        match normalize data with
        | Ok d => d
        | Raise _ => rules_two_pass (normalise user_message)
        end
    end.

End Brain.

(** ** main.py *)

Module Main.

Local Open Scope list_scope.

(** *** Stored data *)

(** [{"ts", "mood", "message", "reply", "alert", "refused"}]; the same
    columns in the table [logs].  A timestamp is the clock reading. *)
Record log_entry : Type := mkLog {
  log_ts : Z;
  log_mood : string;
  log_message : string;
  log_reply : string;
  log_alert : bool;
  log_refused : bool
}.

(** [{"ts", "mood", "message"}]; the same columns in the table [alerts]. *)
Record alert_entry : Type := mkAlert {
  alert_ts : Z;
  alert_mood : string;
  alert_message : string
}.

(** [{"role", "content"}] *)
Record memory_entry : Type := mkMemory {
  role : string;
  content : string
}.

(** A row of the table [memory]: columns [ts], [role], [content]. *)
Record memory_row : Type := mkMemoryRow {
  row_ts : Z;
  row_role : string;
  row_content : string
}.

(** The relational store.  A table that was never created is [None]; a
    created table lists its rows in insertion order, which is the order
    of the [SERIAL] column [id] (the [id] itself is not represented). *)
Record database : Type := mkDatabase {
  t_logs : option (list log_entry);
  t_alerts : option (list alert_entry);
  t_memory : option (list memory_row)
}.

(** *** The process and its environment *)

(** [use_db] is [USE_DB and psycopg2]; [faults k] tells whether the
    [k]-th call into the database driver raises; [clock k] is the
    [k]-th reading of [datetime.now].  [db] is the committed content of
    the store, [open_conns] the number of connections opened and not yet
    closed.  The last three fields are the module-level lists. *)
Record world : Type := mkWorld {
  use_db : bool;
  faults : nat -> bool;
  clock : nat -> Z;
  calls : nat;
  reads : nat;
  db : database;
  open_conns : nat;
  logs_mem : list log_entry;
  alerts_mem : list alert_entry;
  memory_mem : list memory_entry
}.

Definition set_calls (n : nat) (w : world) : world :=
  mkWorld (use_db w) (faults w) (clock w) n (reads w) (db w)
          (open_conns w) (logs_mem w) (alerts_mem w) (memory_mem w).

Definition set_reads (n : nat) (w : world) : world :=
  mkWorld (use_db w) (faults w) (clock w) (calls w) n (db w)
          (open_conns w) (logs_mem w) (alerts_mem w) (memory_mem w).

Definition set_db (d : database) (w : world) : world :=
  mkWorld (use_db w) (faults w) (clock w) (calls w) (reads w) d
          (open_conns w) (logs_mem w) (alerts_mem w) (memory_mem w).

Definition set_open_conns (n : nat) (w : world) : world :=
  mkWorld (use_db w) (faults w) (clock w) (calls w) (reads w) (db w)
          n (logs_mem w) (alerts_mem w) (memory_mem w).

Definition set_logs_mem (l : list log_entry) (w : world) : world :=
  mkWorld (use_db w) (faults w) (clock w) (calls w) (reads w) (db w)
          (open_conns w) l (alerts_mem w) (memory_mem w).

Definition set_alerts_mem (l : list alert_entry) (w : world) : world :=
  mkWorld (use_db w) (faults w) (clock w) (calls w) (reads w) (db w)
          (open_conns w) (logs_mem w) l (memory_mem w).

Definition set_memory_mem (l : list memory_entry) (w : world) : world :=
  mkWorld (use_db w) (faults w) (clock w) (calls w) (reads w) (db w)
          (open_conns w) (logs_mem w) (alerts_mem w) l.

(** *** A state and exception monad *)

Definition M (A : Type) : Type := world -> result A * world.

Definition ret {A : Type} (a : A) : M A := fun w => (Ok a, w).

Definition raise {A : Type} (e : exn) : M A := fun w => (Raise e, w).

Definition bind {A B : Type} (m : M A) (k : A -> M B) : M B :=
  fun w =>
    match m w with
    | (Ok a, w') => k a w'
    | (Raise e, w') => (Raise e, w')
    end.

(** [try: body / except Exception: handler].  What [body] did to the
    state before raising stays done. *)
Definition try_except {A : Type} (body handler : M A) : M A :=
  fun w =>
    match body w with
    | (Ok a, w') => (Ok a, w')
    | (Raise _, w') => handler w'
    end.

Declare Scope monad_scope.
Delimit Scope monad_scope with monad.
Notation "x <- m ;; k" := (bind m (fun x => k))
  (at level 61, m at next level, right associativity) : monad_scope.
Notation "m ;; k" := (bind m (fun _ => k))
  (at level 61, right associativity) : monad_scope.
Open Scope monad_scope.

(** *** psycopg2 and the clock *)

(** Any call into the driver may raise. *)
Definition driver_call : M unit :=
  fun w =>
    let w' := set_calls (S (calls w)) w in
    if faults w (calls w) then (Raise OperationalError, w') else (Ok tt, w').

(** [datetime.now(timezone.utc)] *)
Definition now : M Z :=
  fun w => (Ok (clock w (reads w)), set_reads (S (reads w)) w).

(** A connection carries the view of its open transaction. *)
Record conn : Type := mkConn { txn : database }.

(** [psycopg2.connect(...)] *)
Definition connect : M conn :=
  driver_call ;;
  fun w => (Ok (mkConn (db w)), set_open_conns (S (open_conns w)) w).

(** [con.cursor()] *)
Definition cursor (con : conn) : M unit := driver_call.

(** [con.commit()] *)
Definition commit (con : conn) : M unit :=
  driver_call ;;
  fun w => (Ok tt, set_db (txn con) w).

(** [con.close()]; an uncommitted transaction is discarded. *)
Definition close (con : conn) : M unit :=
  driver_call ;;
  fun w => (Ok tt, set_open_conns (pred (open_conns w)) w).

Definition created {A : Type} (t : option (list A)) : option (list A) :=
  match t with
  | Some rows => Some rows
  | None => Some []
  end.

(** [CREATE TABLE IF NOT EXISTS ...] *)
Definition create_logs (con : conn) : M conn :=
  driver_call ;;
  let d := txn con in
  ret (mkConn (mkDatabase (created (t_logs d)) (t_alerts d) (t_memory d))).

Definition create_alerts (con : conn) : M conn :=
  driver_call ;;
  let d := txn con in
  ret (mkConn (mkDatabase (t_logs d) (created (t_alerts d)) (t_memory d))).

Definition create_memory (con : conn) : M conn :=
  driver_call ;;
  let d := txn con in
  ret (mkConn (mkDatabase (t_logs d) (t_alerts d) (created (t_memory d)))).

(** [INSERT INTO ... VALUES ...]; the server rejects a missing table. *)
Definition insert_log (e : log_entry) (con : conn) : M conn :=
  driver_call ;;
  let d := txn con in
  match t_logs d with
  | None => raise ProgrammingError
  | Some rows =>
      ret (mkConn (mkDatabase (Some (rows ++ [e])) (t_alerts d) (t_memory d)))
  end.

Definition insert_alert (e : alert_entry) (con : conn) : M conn :=
  driver_call ;;
  let d := txn con in
  match t_alerts d with
  | None => raise ProgrammingError
  | Some rows =>
      ret (mkConn (mkDatabase (t_logs d) (Some (rows ++ [e])) (t_memory d)))
  end.

Definition insert_memory (e : memory_row) (con : conn) : M conn :=
  driver_call ;;
  let d := txn con in
  match t_memory d with
  | None => raise ProgrammingError
  | Some rows =>
      ret (mkConn (mkDatabase (t_logs d) (t_alerts d) (Some (rows ++ [e]))))
  end.

(** [SELECT ... ORDER BY id DESC LIMIT limit]: the server rejects a
    missing table and a negative [LIMIT]. *)
Definition select_desc {A : Type} (table : option (list A)) (limit : Z)
  : M (list A) :=
  driver_call ;;
  match table with
  | None => raise ProgrammingError
  | Some rows =>
      if (limit <? 0)%Z then raise DataError
      else ret (firstn (Z.to_nat limit) (rev rows))
  end.

(** [SELECT COUNT( * ) as count FROM ...] *)
Definition select_count {A : Type} (table : option (list A)) : M nat :=
  driver_call ;;
  match table with
  | None => raise ProgrammingError
  | Some rows => ret (length rows)
  end.

(** [cur.fetchall()] and [cur.fetchone()] hand over the result set. *)
Definition fetch {A : Type} (result_set : A) : M A :=
  driver_call ;; ret result_set.

(** *** The functions of main.py *)

Definition db_ok : M bool :=
  fun w =>
    if negb (use_db w) then ret false w
    else try_except (con <- connect ;; close con ;; ret true) (ret false) w.

Definition get_conn : M conn := connect.

Definition log_event_local (msg reply mood : string) (alert refused : bool)
  : M unit :=
  ts <- now ;;
  fun w =>
    let w1 :=
      set_logs_mem (logs_mem w ++ [mkLog ts mood msg reply alert refused]) w in
    let w2 :=
      if alert then set_alerts_mem (alerts_mem w1 ++ [mkAlert ts mood msg]) w1
      else w1 in
    (Ok tt, w2).

Definition log_event_db (msg reply mood : string) (alert refused : bool)
  : M unit :=
  con <- get_conn ;;
  cursor con ;;
  con <- create_logs con ;;
  con <- create_alerts con ;;
  ts <- now ;;
  con <- insert_log (mkLog ts mood msg reply alert refused) con ;;
  con <- (if alert then insert_alert (mkAlert ts mood msg) con
          else ret con) ;;
  commit con ;;
  close con.

Definition log_event (msg reply mood : string) (alert refused : bool)
  : M unit :=
  ok <- db_ok ;;
  if ok then
    try_except (log_event_db msg reply mood alert refused)
               (log_event_local msg reply mood alert refused)
  else log_event_local msg reply mood alert refused.

(** Lines 136-139: append, then drop the head beyond 50 entries. *)
Definition memory_push (e : memory_entry) (mem : list memory_entry)
  : list memory_entry :=
  let mem' := mem ++ [e] in
  if Nat.ltb 50 (length mem') then tl mem' else mem'.

(** Lines 141-158 *)
Definition memory_add_db (role content : string) : M unit :=
  con <- get_conn ;;
  cursor con ;;
  con <- create_memory con ;;
  ts <- now ;;
  con <- insert_memory (mkMemoryRow ts role content) con ;;
  commit con ;;
  close con.

Definition memory_add (role content : string) : M unit :=
  ok <- db_ok ;;
  if negb ok then
    fun w =>
      (Ok tt, set_memory_mem (memory_push (mkMemory role content)
                                          (memory_mem w)) w)
  else memory_add_db role content.

(** Lines 164-173 *)
Definition memory_fetch_db (limit : Z) : M (list memory_entry) :=
  con <- get_conn ;;
  cursor con ;;
  result_set <- select_desc (t_memory (txn con)) limit ;;
  rows <- fetch result_set ;;
  close con ;;
  ret (map (fun r => mkMemory (row_role r) (row_content r)) (rev rows)).

Definition memory_fetch (limit : Z) : M (list memory_entry) :=
  ok <- db_ok ;;
  if negb ok then fun w => (Ok (last_slice limit (memory_mem w)), w)
  else memory_fetch_db limit.

(** Lines 238-243 *)
Definition get_alerts_db (limit : Z) : M (list alert_entry) :=
  con <- get_conn ;;
  cursor con ;;
  result_set <- select_desc (t_alerts (txn con)) limit ;;
  rows <- fetch result_set ;;
  close con ;;
  ret rows.

Definition get_alerts (limit : Z) : M (list alert_entry) :=
  let local := fun w => (Ok (rev (last_slice limit (alerts_mem w))), w) in
  ok <- db_ok ;;
  if ok then try_except (get_alerts_db limit) local else local.

(** Lines 254-259 *)
Definition get_alerts_count_db : M nat :=
  con <- get_conn ;;
  cursor con ;;
  result_set <- select_count (t_alerts (txn con)) ;;
  c <- fetch result_set ;;
  close con ;;
  ret c.

Definition get_alerts_count : M nat :=
  let local := fun w => (Ok (length (alerts_mem w)), w) in
  ok <- db_ok ;;
  if ok then try_except get_alerts_count_db local else local.

(** Lines 270-275 *)
Definition get_logs_db (limit : Z) : M (list log_entry) :=
  con <- get_conn ;;
  cursor con ;;
  result_set <- select_desc (t_logs (txn con)) limit ;;
  rows <- fetch result_set ;;
  close con ;;
  ret rows.

(** Line 278 *)
Definition get_logs_local (limit : Z) : M (list log_entry) :=
  fun w => (Ok (rev (last_slice limit (logs_mem w))), w).

Definition get_logs (limit : Z) : M (list log_entry) :=
  ok <- db_ok ;;
  if ok then try_except (get_logs_db limit) (get_logs_local limit)
  else get_logs_local limit.

(** The request and response models of [/chat]. *)
Record ChatIn : Type := mkChatIn {
  message : string;
  proactivity : bool;
  memory : bool;
  spark : bool
}.

Record ChatOut : Type := mkChatOut {
  out_reply : string;
  out_mood : string;
  out_alert : bool;
  out_spark : bool;
  out_sources : json
}.

Definition as_turn (e : memory_entry) : Brain.turn :=
  [("role", role e); ("content", content e)].

(** [chat(input)], with [think] imported from brain.py.  The validation
    of the response model is left to the framework. *)
Definition chat `{StrOps} `{Repr} (cfg : Brain.config)
  (remote : Brain.remote_service) (input : ChatIn) : M ChatOut :=
  history <- (if memory input then memory_fetch 8 else ret []) ;;
  let d := Brain.think cfg remote (Some (message input))
                       (map as_turn history) in
  (if memory input then
     memory_add "user" (message input) ;;
     memory_add "assistant" (Brain.reply d)
   else ret tt) ;;
  log_event (message input) (Brain.reply d) (Brain.mood d) (Brain.alert d)
            false ;;
  ret (mkChatOut (Brain.reply d) (Brain.mood d) (Brain.alert d)
                 (Brain.spark d)
                 (if truthy (Brain.sources d) then Brain.sources d
                  else JArr [])).


(** Lines 206-216: the [think] defined by main.py when brain.py cannot
    be imported.  The four variables are assigned as a tuple. *)
Definition think_fallback `{StrOps} (user_message : option string)
  (history : list Brain.turn) : Brain.decision :=
  let m := str_lower (str_strip (or_empty user_message)) in
  let v0 := ("Compris.", "good", false, false) in
  let v1 :=
    let '(reply, mood, alert, spark) := v0 in
    if endswith m "?" then ("Voici une réponse concise.", "analyze", alert, true)
    else v0 in
  let v2 :=
    if contains "??" m || contains "?!" m then
      ("Demande insistante détectée.", "notice", true, true)
    else v1 in
  let v3 :=
    let '(reply, mood, alert, spark) := v2 in
    if contains "mineur" m
       && (contains "sex" m || contains "sexe" m || contains "explicit" m)
    then ("Désolé, sujet refusé. Incident consigné.", "alert", true, spark)
    else v2 in
  let '(reply, mood, alert, spark) := v3 in
  Brain.mkDecision reply mood alert spark (JArr []).

End Main.

(** ** Reference definitions used in the statements *)

Module Reference.

Import Main.
Local Open Scope list_scope.

(** The newest [n] entries of [l], newest first. *)
Definition newest_first {A : Type} (n : nat) (l : list A) : list A :=
  firstn n (rev l).

(** The newest [n] entries of [l], oldest of them first. *)
Definition newest_ascending {A : Type} (n : nat) (l : list A) : list A :=
  skipn (length l - n) l.

(** [for (role, content) in entries: memory_add(role, content)] *)
Fixpoint memory_add_all (entries : list memory_entry) : M unit :=
  match entries with
  | [] => ret tt
  | e :: rest => memory_add (role e) (content e) ;; memory_add_all rest
  end.

(** Some lexicon of rules 3 to 6 matches. *)
Definition lexicon (m : string) : bool :=
  any_in Brain.greetings m || any_in Brain.wellbeing m
  || any_in Brain.thanks m || any_in Brain.farewells m.

(** The texts on which the two rule evaluations agree. *)
Definition passes_agree (m : string) : bool :=
  if Brain.minor_sexual m then
    negb (endswith m "?") && negb (Brain.insistent m)
  else Brain.insistent m || negb (lexicon m).

(** The connections open after [op] are those open before it. *)
Definition releases_connection {A : Type} (op : M A) (w : world) : Prop :=
  open_conns (snd (op w)) = open_conns w.

(** [op] releases its connection whenever it returns normally. *)
Definition scoped_on_return {A : Type} (op : M A) : Prop :=
  forall w, returns_normally (fst (op w)) -> releases_connection op w.

(** When [op] raises after its connection was established, that
    connection stays open. *)
Definition leaks_on_raise {A : Type} (op : M A) : Prop :=
  forall w e,
    faults w (calls w) = false ->
    fst (op w) = Raise e ->
    open_conns (snd (op w)) = S (open_conns w).

(** The rows of a table, none when the table does not exist. *)
Definition table_rows {A : Type} (t : option (list A)) : list A :=
  match t with
  | Some rows => rows
  | None => []
  end.

(** The alert entries that the log entries [logs] give rise to. *)
Definition alerts_of (logs : list log_entry) : list alert_entry :=
  map (fun e => mkAlert (log_ts e) (log_mood e) (log_message e))
      (filter log_alert logs).

(** In each store the alerts are those of the flagged log entries. *)
Definition stores_consistent (w : world) : Prop :=
  alerts_mem w = alerts_of (logs_mem w)
  /\ table_rows (t_alerts (db w))
     = alerts_of (table_rows (t_logs (db w))).

(** [op] leaves the three lists and the committed database as they
    are. *)
Definition read_only {A : Type} (op : M A) : Prop :=
  forall w,
    logs_mem (snd (op w)) = logs_mem w
    /\ alerts_mem (snd (op w)) = alerts_mem w
    /\ memory_mem (snd (op w)) = memory_mem w
    /\ db (snd (op w)) = db w.

(** Configurations and worlds for running the code. *)
Definition empty_db : database := mkDatabase None None None.

Definition quiet (k : nat) : bool := false.

Definition fails_at (n k : nat) : bool := Nat.eqb k n.

Definition start_world (use : bool) (f : nat -> bool) : world :=
  mkWorld use f Z.of_nat 0 0 empty_db 0 [] [] [].

Definition after_two_logs (w : world) : world :=
  snd (log_event "second" "r2" "good" false false
         (snd (log_event "first" "r1" "good" false false w))).

Definition sixty_entries : list memory_entry :=
  map (fun k => mkMemory "user" (String (ascii_of_nat k) "")) (seq 0 60).

Definition cfg_no_key : Brain.config :=
  {| Brain.USE_OPENAI := true;
     Brain.OPENAI_API_KEY := None;
     Brain.VIRGIL_MODEL := None |}.

Definition cfg_with_key : Brain.config :=
  {| Brain.USE_OPENAI := true;
     Brain.OPENAI_API_KEY := Some "sk-test";
     Brain.VIRGIL_MODEL := None |}.

(** A remote service that is out of reach. *)
Definition unreachable : Brain.remote_service :=
  fun _ _ _ => Brain.RemoteRaises.

(** A remote service that always answers the payload [data]. *)
Definition answers (data : json) : Brain.remote_service :=
  fun _ _ _ => Brain.RemoteParsed data.

(** Twelve turns, numbered by their content. *)
Definition twelve_turns : list Brain.turn :=
  map (fun k => [("role", "user");
                 ("content", String (ascii_of_nat (65 + k)) "")])
      (seq 0 12).

(** [think] and [chat] under the ASCII runtime. *)
Definition run_think : Brain.config -> Brain.remote_service ->
                       option string -> list Brain.turn -> Brain.decision :=
  @Brain.think ascii_ops atom_repr.

Definition run_chat : Brain.config -> Brain.remote_service ->
                      ChatIn -> M ChatOut :=
  @chat ascii_ops atom_repr.

End Reference.

(** ** Properties of brain.py *)

Section BrainFacts.

Import Brain Reference.
Context {ops : StrOps} {rp : Repr}.

Lemma think_no_capability (cfg : config) (remote : remote_service)
  (user_message : option string) (history : list turn) :
  no_capability cfg = true ->
  think cfg remote user_message history
  = rules_single_pass (normalise user_message).
Proof. intros Hcfg. unfold think. now rewrite Hcfg. Qed.

Lemma think_remote_raises (cfg : config) (remote : remote_service)
  (user_message : option string) (history : list turn) :
  no_capability cfg = false ->
  remote_call cfg remote user_message history = RemoteRaises ->
  think cfg remote user_message history
  = rules_two_pass (normalise user_message).
Proof. intros Hcfg Hcall. unfold think. now rewrite Hcfg, Hcall. Qed.

Lemma member_In (x : string) (l : list string) :
  member x l = true -> In x l.
Proof.
  unfold member. intros Hx. apply existsb_exists in Hx.
  destruct Hx as [y [Hy Hxy]]. apply String.eqb_eq in Hxy. now subst.
Qed.

Lemma clamped_mood (x : string) :
  In (if member x moods then x else "done") moods.
Proof.
  destruct (member x moods) eqn:Hx; [now apply member_In |].
  unfold moods. simpl. tauto.
Qed.

Lemma single_pass_mood (m : string) :
  In (mood (rules_single_pass m)) moods.
Proof.
  unfold rules_single_pass, moods.
  repeat match goal with
         | |- context [if ?b then _ else _] => destruct b
         end; simpl; tauto.
Qed.

Lemma two_pass_mood (m : string) :
  In (mood (rules_two_pass m)) moods.
Proof.
  unfold rules_two_pass, moods.
  destruct (endswith m "?"), (insistent m), (minor_sexual m); simpl; tauto.
Qed.

Lemma normalize_object (fields : list (string * json)) :
  let field key default :=
    match dict_get fields key with Some v => v | None => default end in
  let mood0 := py_str (field "mood" (JStr "done")) in
  let so := field "sources" (JArr []) in
  normalize (JObj fields)
  = Ok (mkDecision
          (py_str (field "reply" (JStr "Compris.")))
          (if member mood0 moods then mood0 else "done")
          (truthy (field "alert" (JBool false)))
          (truthy (field "spark"
                     (JBool (member mood0 ["analyze"; "notice"]))))
          (if truthy so then so else JArr [])).
Proof.
  unfold normalize, get. cbv zeta.
  destruct (member _ moods); reflexivity.
Qed.

Lemma normalize_not_object (data : json) :
  (forall fields, data <> JObj fields) ->
  normalize data = Raise AttributeError.
Proof.
  intros Hdata. destruct data; try reflexivity. now elim (Hdata fields).
Qed.

(** C5: with no remote capability configured, a text whose normalised
    form contains "mineur" together with one of "sex", "sexe" or
    "explicit" gets alert = true and mood = "alert", whatever else it
    contains (a "??" included). *)
Theorem C5_minor_sexual_dominates (cfg : config) (remote : remote_service)
  (user_message : option string) (history : list turn) :
  no_capability cfg = true ->
  contains "mineur" (normalise user_message) = true ->
  contains "sex" (normalise user_message) = true
  \/ contains "sexe" (normalise user_message) = true
  \/ contains "explicit" (normalise user_message) = true ->
  alert (think cfg remote user_message history) = true
  /\ mood (think cfg remote user_message history) = "alert".
Proof.
  intros Hcfg Hminor Hsexual.
  rewrite (think_no_capability _ _ _ _ Hcfg).
  unfold rules_single_pass, minor_sexual. rewrite Hminor.
  assert (Hany : contains "sex" (normalise user_message)
                 || contains "sexe" (normalise user_message)
                 || contains "explicit" (normalise user_message) = true).
  { destruct Hsexual as [H | [H | H]]; rewrite H;
      repeat rewrite orb_true_r; reflexivity. }
  rewrite Hany. simpl. split; reflexivity.
Qed.

(** C6, amended: a text whose normalised form contains "??" or "?!"
    gets alert = true from both rule evaluations; when it does not match
    the minor-and-sexual rule it also gets mood = "notice" and
    spark = true from both, whether or not it ends in "?". *)
Theorem C6_insistent_notice (cfg_rules cfg_remote : config)
  (remote : remote_service) (user_message : option string)
  (history : list turn) :
  no_capability cfg_rules = true ->
  no_capability cfg_remote = false ->
  remote_call cfg_remote remote user_message history = RemoteRaises ->
  contains "??" (normalise user_message) = true
  \/ contains "?!" (normalise user_message) = true ->
  (alert (think cfg_rules remote user_message history) = true
   /\ alert (think cfg_remote remote user_message history) = true)
  /\ (minor_sexual (normalise user_message) = false ->
      mood (think cfg_rules remote user_message history) = "notice"
      /\ spark (think cfg_rules remote user_message history) = true
      /\ mood (think cfg_remote remote user_message history) = "notice"
      /\ spark (think cfg_remote remote user_message history) = true).
Proof.
  intros Hrules Hremote Hcall Hins.
  rewrite (think_no_capability _ _ _ _ Hrules).
  rewrite (think_remote_raises _ _ _ _ Hremote Hcall).
  assert (Hinsistent : insistent (normalise user_message) = true).
  { unfold insistent. destruct Hins as [H | H]; rewrite H;
      [reflexivity | apply orb_true_r]. }
  unfold rules_single_pass, rules_two_pass. rewrite Hinsistent.
  split.
  - destruct (minor_sexual (normalise user_message));
      destruct (endswith (normalise user_message) "?"); simpl; auto.
  - intros Hnot. rewrite Hnot.
    destruct (endswith (normalise user_message) "?"); simpl; auto.
Qed.

(** C9: with no remote capability configured, the returned decision has
    alert = true exactly when its mood is "alert" or "notice",
    spark = true exactly when its mood is "analyze" or "notice", and an
    empty list of sources. *)
Theorem C9_single_pass_flags (cfg : config) (remote : remote_service)
  (user_message : option string) (history : list turn) :
  no_capability cfg = true ->
  alert (think cfg remote user_message history)
  = member (mood (think cfg remote user_message history))
           ["alert"; "notice"]
  /\ spark (think cfg remote user_message history)
     = member (mood (think cfg remote user_message history))
              ["analyze"; "notice"]
  /\ sources (think cfg remote user_message history) = JArr [].
Proof.
  intros Hcfg. rewrite (think_no_capability _ _ _ _ Hcfg).
  unfold rules_single_pass.
  repeat match goal with
         | |- context [if ?b then _ else _] => destruct b
         end; repeat split; reflexivity.
Qed.

(** C10: with no remote capability configured, [think] applied to
    [None] or to the empty string returns the default decision
    ("Compris.", "good", false, false, no sources).  The runtime maps
    the empty string to itself under [strip] and [lower]. *)
Theorem C10_empty_message_default (cfg : config) (remote : remote_service)
  (user_message : option string) (history : list turn) :
  str_strip "" = "" ->
  str_lower "" = "" ->
  no_capability cfg = true ->
  user_message = None \/ user_message = Some "" ->
  think cfg remote user_message history
  = mkDecision "Compris." "good" false false (JArr []).
Proof.
  intros Hstrip Hlower Hcfg Hmsg.
  rewrite (think_no_capability _ _ _ _ Hcfg).
  assert (Hm : normalise user_message = "").
  { unfold normalise. destruct Hmsg as [-> | ->]; simpl;
      now rewrite Hstrip, Hlower. }
  rewrite Hm. reflexivity.
Qed.

(** C2, amended: the degraded two-pass evaluation returns the same
    tuple as the single-pass engine exactly on the texts accepted by
    [passes_agree]: those matching the minor-and-sexual rule that
    neither end in "?" nor contain "??" or "?!", and those not matching
    it that contain "??" or "?!" or match none of the four lexicons. *)
Theorem C2_two_pass_agreement (cfg_rules cfg_remote : config)
  (remote : remote_service) (user_message : option string)
  (history : list turn) :
  no_capability cfg_rules = true ->
  no_capability cfg_remote = false ->
  remote_call cfg_remote remote user_message history = RemoteRaises ->
  (think cfg_remote remote user_message history
   = think cfg_rules remote user_message history
   <-> passes_agree (normalise user_message) = true).
Proof.
  intros Hrules Hremote Hcall.
  rewrite (think_no_capability _ _ _ _ Hrules).
  rewrite (think_remote_raises _ _ _ _ Hremote Hcall).
  unfold passes_agree, lexicon, rules_single_pass, rules_two_pass.
  generalize (normalise user_message) as m. intros m.
  destruct (minor_sexual m), (insistent m), (endswith m "?");
    destruct (any_in greetings m), (any_in wellbeing m),
             (any_in thanks m), (any_in farewells m);
    simpl; split; intros H; solve [reflexivity | discriminate H].
Qed.

(** C7: on every parsed JSON object the normaliser returns without
    raising; the mood of its decision is one of the seven values, equal
    to the extracted mood when that is one of them and to "done"
    otherwise; a missing field takes its default (reply "Compris.",
    mood "done", alert false, no sources, spark true exactly when the
    extracted mood is "analyze" or "notice").  Whatever the remote
    service does, the mood returned by [think] is one of the seven. *)
Theorem C7_normalize_total_and_clamped (fields : list (string * json)) :
  exists d,
    normalize (JObj fields) = Ok d
    /\ In (mood d) moods
    /\ (let mood0 :=
          py_str (match dict_get fields "mood" with
                  | Some v => v
                  | None => JStr "done"
                  end) in
        (member mood0 moods = false -> mood d = "done")
        /\ (member mood0 moods = true -> mood d = mood0)
        /\ (dict_get fields "spark" = None ->
            spark d = member mood0 ["analyze"; "notice"]))
    /\ (dict_get fields "reply" = None -> reply d = "Compris.")
    /\ (dict_get fields "mood" = None -> mood d = "done")
    /\ (dict_get fields "alert" = None -> alert d = false)
    /\ (dict_get fields "sources" = None -> sources d = JArr [])
    /\ (forall cfg remote user_message history,
          In (mood (think cfg remote user_message history)) moods).
Proof.
  eexists. split; [apply normalize_object |].
  cbv zeta. cbn [mood reply alert spark sources].
  repeat split.
  - apply clamped_mood.
  - intros Hm. now rewrite Hm.
  - intros Hm. now rewrite Hm.
  - intros Hs. now rewrite Hs.
  - intros Hr. now rewrite Hr.
  - intros Hm. rewrite Hm. reflexivity.
  - intros Ha. now rewrite Ha.
  - intros Hs. now rewrite Hs.
  - intros cfg remote user_message history. unfold think.
    destruct (no_capability cfg); [apply single_pass_mood |].
    destruct (remote_call cfg remote user_message history) as [| data];
      [apply two_pass_mood |].
    destruct data; try apply two_pass_mood.
    rewrite normalize_object. cbv zeta. cbn [mood]. apply clamped_mood.
Qed.

(** *** Further properties of the rule evaluations *)

(** The two rule evaluations raise the alert flag on the same texts,
    those matching the minor-and-sexual rule or holding "??" or "?!";
    their moods differ exactly on a text that matches neither, matches
    a lexicon and ends in "?". *)
Theorem passes_agree_on_alert (m : string) :
  alert (rules_two_pass m) = alert (rules_single_pass m)
  /\ alert (rules_single_pass m) = minor_sexual m || insistent m
  /\ (mood (rules_two_pass m) = mood (rules_single_pass m)
      <-> minor_sexual m || insistent m
          || negb (lexicon m && endswith m "?") = true).
Proof.
  unfold rules_single_pass, rules_two_pass, lexicon.
  destruct (minor_sexual m), (insistent m), (endswith m "?");
    destruct (any_in greetings m), (any_in wellbeing m),
             (any_in thanks m), (any_in farewells m);
    simpl; repeat split; intros H;
    solve [reflexivity | discriminate H].
Qed.

(** The two-pass evaluation sets alert exactly when its mood is "alert"
    or "notice", sets spark exactly when the text ends in "?" or holds
    "??" or "?!" (also under the mood "alert"), gives no sources, and
    answers with one of four replies, never with a greeting. *)
Theorem two_pass_flags (m : string) :
  alert (rules_two_pass m)
  = member (mood (rules_two_pass m)) ["alert"; "notice"]
  /\ spark (rules_two_pass m) = endswith m "?" || insistent m
  /\ sources (rules_two_pass m) = JArr []
  /\ In (reply (rules_two_pass m))
        ["Compris."; "Voici une réponse concise.";
         "Demande insistante détectée.";
         "Désolé, sujet refusé. Incident consigné."].
Proof.
  unfold rules_two_pass.
  destruct (minor_sexual m), (insistent m), (endswith m "?");
    simpl; repeat split; tauto.
Qed.

(** The [think] that main.py defines when brain.py is missing returns,
    on every message, what the [except] branch of brain.py returns. *)
Theorem think_fallback_is_two_pass (user_message : option string)
  (history : list turn) :
  Main.think_fallback user_message history
  = rules_two_pass (normalise user_message).
Proof.
  unfold Main.think_fallback, rules_two_pass, normalise,
    minor_sexual, insistent.
  set (m := str_lower (str_strip (or_empty user_message))).
  destruct (endswith m "?");
    destruct (contains "??" m || contains "?!" m);
    destruct (contains "mineur" m
              && (contains "sex" m || contains "sexe" m
                  || contains "explicit" m));
    reflexivity.
Qed.

(** *** The history window *)

Lemma last_slice_short {A : Type} (n : nat) (l : list A) :
  length l <= n -> last_slice (Z.of_nat n) l = l.
Proof.
  intros Hlen. unfold last_slice, slice_from.
  destruct (Z.ltb_spec (- Z.of_nat n) 0) as [Hneg | Hzero].
  - replace (Z.to_nat (Z.max 0 (Z.of_nat (length l) + - Z.of_nat n)))
      with 0 by lia.
    reflexivity.
  - replace (Z.to_nat (Z.min (- Z.of_nat n) (Z.of_nat (length l))))
      with 0 by lia.
    reflexivity.
Qed.

Lemma last_slice_app {A : Type} (n : nat) (older recent : list A) :
  length recent = n -> 0 < n ->
  last_slice (Z.of_nat n) (older ++ recent) = recent.
Proof.
  intros Hlen Hpos. unfold last_slice, slice_from.
  destruct (Z.ltb_spec (- Z.of_nat n) 0) as [_ | Hge]; [| lia].
  rewrite length_app.
  replace (Z.to_nat (Z.max 0 (Z.of_nat (length older + length recent)
                              + - Z.of_nat n)))
    with (length older) by lia.
  rewrite skipn_app, skipn_all, Nat.sub_diag. reflexivity.
Qed.

(** Only the ten most recent turns of the history reach the remote
    service: turns older than those do not change what [think]
    returns. *)
Theorem think_uses_last_ten_turns (cfg : config) (remote : remote_service)
  (user_message : option string) (older recent : list turn) :
  length recent = 10 ->
  think cfg remote user_message (older ++ recent)
  = think cfg remote user_message recent.
Proof.
  intros Hlen. unfold think, remote_call, prompt, _fmt.
  change 10%Z with (Z.of_nat 10).
  rewrite (last_slice_app 10 older recent Hlen) by lia.
  rewrite (last_slice_short 10 recent) by lia.
  reflexivity.
Qed.

(** *** The remote path *)

(** A parsed payload that is not a JSON object is handled like a failed
    call: [think] returns the two-pass evaluation of the message. *)
Theorem think_payload_not_object (cfg : config) (remote : remote_service)
  (user_message : option string) (history : list turn) (data : json) :
  no_capability cfg = false ->
  remote_call cfg remote user_message history = RemoteParsed data ->
  (forall fields, data <> JObj fields) ->
  think cfg remote user_message history
  = rules_two_pass (normalise user_message).
Proof.
  intros Hcfg Hcall Hdata. unfold think. rewrite Hcfg, Hcall.
  now rewrite (normalize_not_object data Hdata).
Qed.

(** When the remote service answers with a JSON object, the decision is
    read from the object alone and the local rules are not applied: the
    alert flag is the truth value of the field "alert", false when the
    field is missing, whatever the message says. *)
Theorem think_payload_decides (cfg : config) (remote : remote_service)
  (user_message : option string) (history : list turn)
  (fields : list (string * json)) :
  no_capability cfg = false ->
  remote_call cfg remote user_message history = RemoteParsed (JObj fields) ->
  normalize (JObj fields) = Ok (think cfg remote user_message history)
  /\ alert (think cfg remote user_message history)
     = match dict_get fields "alert" with
       | Some v => truthy v
       | None => false
       end.
Proof.
  intros Hcfg Hcall. unfold think. rewrite Hcfg, Hcall.
  rewrite normalize_object. cbv zeta. cbn [alert].
  split; [reflexivity |].
  now destruct (dict_get fields "alert").
Qed.


End BrainFacts.

(** ** Properties of main.py *)

Section MainFacts.

Import Main Reference.
Local Open Scope list_scope.

Ltac unfold_ops :=
  unfold log_event, log_event_db, log_event_local,
    memory_add, memory_add_db, memory_fetch, memory_fetch_db,
    get_alerts, get_alerts_db, get_alerts_count, get_alerts_count_db,
    get_logs, get_logs_db, get_logs_local, db_ok, get_conn,
    connect, cursor, commit, close, create_logs, create_alerts,
    create_memory, insert_log, insert_alert, insert_memory,
    select_desc, select_count, fetch, now, driver_call,
    try_except, bind, ret, raise, created.

Ltac reduce_world :=
  cbn [fst snd use_db faults clock calls reads db open_conns logs_mem
       alerts_mem memory_mem set_calls set_reads set_db set_open_conns
       set_logs_mem set_alerts_mem set_memory_mem txn
       t_logs t_alerts t_memory negb] in *.

Ltac branch :=
  match goal with
  | |- context [if faults ?w ?k then _ else _] =>
      destruct (faults w k) eqn:?
  | |- context [match ?t with Some _ => _ | None => _ end] =>
      destruct t eqn:?
  | |- context [if ?b then _ else _] => destruct b eqn:?
  end.

Ltac run := unfold_ops; reduce_world; repeat (branch; reduce_world).

(** *** Which operations can raise *)

Lemma db_ok_returns (w : world) : returns_normally (fst (db_ok w)).
Proof. run; eexists; reflexivity. Qed.

Lemma log_event_returns msg reply mood alert refused (w : world) :
  returns_normally (fst (log_event msg reply mood alert refused w)).
Proof. run; eexists; reflexivity. Qed.

Lemma get_alerts_returns (limit : Z) (w : world) :
  returns_normally (fst (get_alerts limit w)).
Proof. run; eexists; reflexivity. Qed.

Lemma get_alerts_count_returns (w : world) :
  returns_normally (fst (get_alerts_count w)).
Proof. run; eexists; reflexivity. Qed.

Lemma get_logs_returns (limit : Z) (w : world) :
  returns_normally (fst (get_logs limit w)).
Proof. run; eexists; reflexivity. Qed.

Lemma memory_add_returns_without_db role content (w : world) :
  use_db w = false ->
  returns_normally (fst (memory_add role content w)).
Proof.
  intros Hdb. unfold memory_add, db_ok, bind. rewrite Hdb. simpl.
  eexists; reflexivity.
Qed.

Lemma memory_fetch_returns_without_db (limit : Z) (w : world) :
  use_db w = false ->
  returns_normally (fst (memory_fetch limit w)).
Proof.
  intros Hdb. unfold memory_fetch, db_ok, bind. rewrite Hdb. simpl.
  eexists; reflexivity.
Qed.

(** C1: [memory_fetch] and [memory_add] run the durable operation
    outside any [try]: [memory_fetch(8)] raises on a reachable database
    whose table [memory] does not exist yet, and [memory_add] raises
    when the probe succeeds and the [INSERT] fails.  The first request
    to [/chat] on such a database therefore raises as well. *)
Theorem C1_memory_operations_raise :
  fst (memory_fetch 8 (start_world true quiet)) = Raise ProgrammingError
  /\ fst (memory_add "user" "bonjour" (start_world true (fails_at 5)))
     = Raise OperationalError
  /\ fst (run_chat cfg_no_key unreachable
             (mkChatIn "Bonjour" true true false)
             (start_world true quiet)) = Raise ProgrammingError.
Proof. repeat split; vm_compute; reflexivity. Qed.

(** *** Ordering of the listings *)

Lemma last_slice_positive {A : Type} (limit : Z) (l : list A) :
  (0 < limit)%Z ->
  last_slice limit l = skipn (length l - Z.to_nat limit) l.
Proof.
  intros Hpos. unfold last_slice, slice_from.
  destruct (Z.ltb_spec (- limit) 0) as [_ | Hge]; [| lia].
  f_equal. lia.
Qed.

Lemma rev_last_slice {A : Type} (limit : Z) (l : list A) :
  (0 < limit)%Z ->
  rev (last_slice limit l) = newest_first (Z.to_nat limit) l.
Proof.
  intros Hpos. rewrite (last_slice_positive _ _ Hpos).
  unfold newest_first. symmetry. apply firstn_rev.
Qed.

(** C3, amended: for every limit n >= 1 the logs listing returns the
    newest n entries, newest first: those of the list [logs_mem] when
    the database is not in use, those of the table [logs] when the
    database is in use and no driver call fails, and those of one of the
    two in every case. *)
Theorem C3_get_logs_newest_first (limit : Z) (w : world) :
  (0 < limit)%Z ->
  (use_db w = false ->
   get_logs limit w
   = (Ok (newest_first (Z.to_nat limit) (logs_mem w)), w))
  /\ (forall rows,
        use_db w = true ->
        (forall k, faults w k = false) ->
        t_logs (db w) = Some rows ->
        fst (get_logs limit w) = Ok (newest_first (Z.to_nat limit) rows))
  /\ (exists r,
        fst (get_logs limit w) = Ok r
        /\ (r = newest_first (Z.to_nat limit) (logs_mem w)
            \/ exists rows,
                 t_logs (db w) = Some rows
                 /\ r = newest_first (Z.to_nat limit) rows)).
Proof.
  intros Hpos. repeat split.
  - intros Hdb. unfold get_logs, db_ok, bind. rewrite Hdb. simpl.
    unfold get_logs_local. now rewrite (rev_last_slice _ _ Hpos).
  - intros rows Hdb Hquiet Hrows. run;
      repeat match goal with
             | H : faults w _ = true |- _ =>
                 rewrite Hquiet in H; discriminate H
             | H : negb (use_db w) = true |- _ =>
                 rewrite Hdb in H; discriminate H
             | H : (limit <? 0)%Z = true |- _ => apply Z.ltb_lt in H; lia
             end;
      unfold newest_first; simpl; congruence.
  - run; eexists;
      (split; [reflexivity |]);
      solve [ left; apply (rev_last_slice _ _ Hpos)
            | right; eexists; split; reflexivity ].
Qed.

(** *** Connections *)

Ltac settle_connection :=
  run;
  try (intros [a Ha]; try discriminate Ha; reflexivity);
  try (intros e Hconn Hraise; try discriminate Hconn;
       try discriminate Hraise; reflexivity).

(** C4, amended: each durable operation closes the connection it
    opened when all its steps complete; when a step raises after the
    connection was established the operation exits with the connection
    still open.  The probe [db_ok] closes its connection whenever it
    answers [True]. *)
Theorem C4_connection_released_on_return
  (msg reply mood role content : string) (alert refused : bool)
  (limit : Z) :
  (scoped_on_return (log_event_db msg reply mood alert refused)
   /\ leaks_on_raise (log_event_db msg reply mood alert refused))
  /\ (scoped_on_return (memory_add_db role content)
      /\ leaks_on_raise (memory_add_db role content))
  /\ (scoped_on_return (memory_fetch_db limit)
      /\ leaks_on_raise (memory_fetch_db limit))
  /\ (scoped_on_return (get_alerts_db limit)
      /\ leaks_on_raise (get_alerts_db limit))
  /\ (scoped_on_return get_alerts_count_db
      /\ leaks_on_raise get_alerts_count_db)
  /\ (scoped_on_return (get_logs_db limit)
      /\ leaks_on_raise (get_logs_db limit))
  /\ (forall w, fst (db_ok w) = Ok true -> releases_connection db_ok w).
Proof.
  unfold scoped_on_return, leaks_on_raise, releases_connection.
  repeat split; intros w; try settle_connection.
  all: intros Hok; try discriminate Hok; reflexivity.
Qed.

(** *** The volatile memory *)

Lemma memory_push_spec (e : memory_entry) (mem : list memory_entry) :
  length mem <= 50 ->
  memory_push e mem
  = skipn (length (mem ++ [e]) - 50) (mem ++ [e]).
Proof.
  intros Hlen. unfold memory_push.
  rewrite length_app. simpl length.
  destruct (Nat.ltb_spec 50 (length mem + 1)) as [Hfull | Hroom].
  - replace (length mem + 1 - 50) with 1 by lia.
    now destruct (mem ++ [e]).
  - replace (length mem + 1 - 50) with 0 by lia. reflexivity.
Qed.

Lemma memory_push_length (e : memory_entry) (mem : list memory_entry) :
  length mem <= 50 -> length (memory_push e mem) <= 50.
Proof.
  intros Hlen. rewrite (memory_push_spec _ _ Hlen).
  rewrite length_skipn, length_app. simpl. lia.
Qed.

Lemma memory_push_all (es mem : list memory_entry) :
  length mem <= 50 ->
  fold_left (fun acc e => memory_push e acc) es mem
  = skipn (length (mem ++ es) - 50) (mem ++ es).
Proof.
  revert mem. induction es as [| e es IH]; intros mem Hlen.
  - rewrite app_nil_r. simpl.
    replace (length mem - 50) with 0 by lia. reflexivity.
  - simpl fold_left. rewrite (IH _ (memory_push_length e mem Hlen)).
    rewrite (memory_push_spec _ _ Hlen).
    set (k := length (mem ++ [e]) - 50).
    assert (Hk : k <= length (mem ++ [e])) by (unfold k; lia).
    assert (Happ : skipn k (mem ++ [e]) ++ es = skipn k (mem ++ e :: es)).
    { replace (mem ++ e :: es) with ((mem ++ [e]) ++ es)
        by (rewrite <- app_assoc; reflexivity).
      rewrite (skipn_app k (mem ++ [e]) es).
      replace (k - length (mem ++ [e])) with 0 by lia. reflexivity. }
    rewrite Happ, skipn_skipn. f_equal.
    rewrite length_skipn. unfold k.
    rewrite !length_app in *. simpl in *. lia.
Qed.

Lemma memory_add_all_without_db (es : list memory_entry) (w : world) :
  use_db w = false ->
  memory_add_all es w
  = (Ok tt,
     set_memory_mem
       (fold_left (fun acc e => memory_push e acc) es (memory_mem w)) w).
Proof.
  revert w. induction es as [| e es IH]; intros w Hdb.
  - simpl. unfold ret. now destruct w.
  - simpl memory_add_all. unfold bind at 1.
    assert (Hstep : memory_add (role e) (content e) w
                    = (Ok tt, set_memory_mem
                                (memory_push e (memory_mem w)) w)).
    { unfold memory_add, db_ok, bind. rewrite Hdb. simpl.
      now destruct e. }
    rewrite Hstep, IH by exact Hdb. reflexivity.
Qed.

Lemma memory_add_keeps_bound role content (w : world) :
  length (memory_mem w) <= 50 ->
  length (memory_mem (snd (memory_add role content w))) <= 50.
Proof.
  intros Hlen. run; try exact Hlen; now apply memory_push_length.
Qed.

(** C8: a call of [memory_add] never lets the volatile memory exceed
    50 entries, and adding 60 entries in sequence to an empty volatile
    memory, the database not being in use, leaves exactly the last 50
    of them in their order. *)
Theorem C8_volatile_memory_bound (w : world) (entries : list memory_entry) :
  (forall role content,
     length (memory_mem w) <= 50 ->
     length (memory_mem (snd (memory_add role content w))) <= 50)
  /\ (use_db w = false ->
      memory_mem w = [] ->
      length entries = 60 ->
      fst (memory_add_all entries w) = Ok tt
      /\ memory_mem (snd (memory_add_all entries w)) = skipn 10 entries
      /\ length (memory_mem (snd (memory_add_all entries w))) = 50).
Proof.
  split.
  - intros role content. apply memory_add_keeps_bound.
  - intros Hdb Hempty Hlen.
    rewrite (memory_add_all_without_db _ _ Hdb). reduce_world.
    rewrite Hempty, memory_push_all by (simpl; lia).
    simpl app. rewrite Hlen. simpl Nat.sub.
    repeat split. rewrite length_skipn. lia.
Qed.

(** *** The connection string *)







(** *** The probe and the operations that only read *)

Ltac use_branches w :=
  repeat match goal with
         | H : negb (use_db w) = _ |- _ =>
             destruct (use_db w); simpl in H; try discriminate H; clear H
         | H : faults w _ = _ |- _ => rewrite H; clear H
         end.

(** [db_ok] never raises; it answers [True] exactly when the database
    is configured and both the connection attempt and the close
    succeed, and without a configured database it does not call the
    driver at all. *)
Theorem db_ok_exact (w : world) :
  fst (db_ok w)
  = Ok (use_db w && negb (faults w (calls w))
        && negb (faults w (S (calls w))))
  /\ (use_db w = false -> snd (db_ok w) = w).
Proof.
  split.
  - run; use_branches w; reflexivity.
  - intros Hdb. unfold db_ok. rewrite Hdb. reflexivity.
Qed.

(** The probe, [memory_fetch] and the three listing and counting
    operations never modify the three in-memory lists nor the committed
    content of the database, whatever the driver does. *)
Theorem reading_operations_read_only (limit : Z) :
  read_only db_ok
  /\ read_only (memory_fetch limit)
  /\ read_only (get_alerts limit)
  /\ read_only get_alerts_count
  /\ read_only (get_logs limit).
Proof.
  unfold read_only.
  repeat split; run; reflexivity.
Qed.

(** *** Where a log entry goes *)

Ltac quiet_run w Hdb Hquiet :=
  run;
  repeat match goal with
         | H : faults w _ = true |- _ => rewrite Hquiet in H; discriminate H
         | H : negb (use_db w) = true |- _ => rewrite Hdb in H; discriminate H
         end.

Ltac known_tables w :=
  repeat match goal with
         | H : match ?t with Some _ => _ | None => _ end = Some _ |- _ =>
             destruct t eqn:?; injection H as <-
         | H : match ?t with Some _ => _ | None => _ end = None |- _ =>
             destruct t; discriminate H
         end;
  repeat match goal with
         | H : t_logs (db w) = _ |- _ => rewrite H
         | H : t_alerts (db w) = _ |- _ => rewrite H
         | H : t_memory (db w) = _ |- _ => rewrite H
         end;
  cbn [table_rows app].

(** [log_event] never loses the entry: after the call the entry, with
    its alert when flagged, ends the in-memory lists or ends the tables
    of the committed database. *)
Theorem log_event_recorded (msg reply mood : string) (alert refused : bool)
  (w : world) :
  exists ts,
    let w' := snd (log_event msg reply mood alert refused w) in
    let e := mkLog ts mood msg reply alert refused in
    let a := if alert then [mkAlert ts mood msg] else [] in
    (logs_mem w' = logs_mem w ++ [e]
     /\ alerts_mem w' = alerts_mem w ++ a)
    \/ (logs_mem w' = logs_mem w
        /\ alerts_mem w' = alerts_mem w
        /\ t_logs (db w') = Some (table_rows (t_logs (db w)) ++ [e])
        /\ t_alerts (db w') = Some (table_rows (t_alerts (db w)) ++ a)).
Proof.
  cbv zeta. run; known_tables w; eexists;
    first [ left; split; [reflexivity | rewrite ?app_nil_r; reflexivity]
          | right; rewrite ?app_nil_r; repeat split; reflexivity ].
Qed.

(** A log entry written in stable conditions goes to one store only.
    Without a configured database the entry is appended to [logs_mem]
    (and its alert to [alerts_mem]) and neither the driver nor the
    database is touched; with a database whose driver does not fail the
    entry is appended to the tables, the lists stay as they are and no
    connection stays open. *)
Theorem log_event_one_store (msg reply mood : string) (alert refused : bool)
  (w : world) :
  let w' := snd (log_event msg reply mood alert refused w) in
  let e := mkLog (clock w (reads w)) mood msg reply alert refused in
  let a := if alert then [mkAlert (clock w (reads w)) mood msg] else [] in
  (use_db w = false ->
   logs_mem w' = logs_mem w ++ [e]
   /\ alerts_mem w' = alerts_mem w ++ a
   /\ db w' = db w /\ calls w' = calls w)
  /\ (use_db w = true ->
      (forall k, faults w k = false) ->
      logs_mem w' = logs_mem w
      /\ alerts_mem w' = alerts_mem w
      /\ db w' = mkDatabase
                   (Some (table_rows (t_logs (db w)) ++ [e]))
                   (Some (table_rows (t_alerts (db w)) ++ a))
                   (t_memory (db w))
      /\ open_conns w' = open_conns w).
Proof.
  cbv zeta. split.
  - intros Hdb. unfold log_event, db_ok, bind. rewrite Hdb. simpl.
    destruct alert; simpl; rewrite ?app_nil_r; repeat split.
  - intros Hdb Hquiet. quiet_run w Hdb Hquiet;
      known_tables w; rewrite ?app_nil_r; repeat split.
Qed.

(** *** Alerts mirror the flagged log entries *)

Lemma alerts_of_app (l : list log_entry) (e : log_entry) :
  alerts_of (l ++ [e])
  = alerts_of l
    ++ (if log_alert e
        then [mkAlert (log_ts e) (log_mood e) (log_message e)]
        else []).
Proof.
  unfold alerts_of. rewrite filter_app, map_app. simpl.
  now destruct (log_alert e).
Qed.

Ltac consistent_branch w :=
  let Hmem := fresh "Hmem" in
  let Hdb := fresh "Hdb" in
  unfold stores_consistent in *; reduce_world;
  match goal with
  | H : _ /\ _ |- _ => destruct H as [Hmem Hdb]
  end;
  repeat match goal with
         | H : match ?t with Some _ => _ | None => _ end = Some _ |- _ =>
             destruct t eqn:?; injection H as <-
         | H : match ?t with Some _ => _ | None => _ end = None |- _ =>
             destruct t; discriminate H
         end;
  repeat match goal with
         | H : t_logs (db w) = _ |- _ => rewrite H in *; clear H
         | H : t_alerts (db w) = _ |- _ => rewrite H in *; clear H
         end;
  cbn [table_rows t_logs t_alerts] in *;
  rewrite ?alerts_of_app; cbn [log_alert log_ts log_mood log_message app];
  rewrite ?app_nil_r;
  try split;
  first [ congruence | rewrite <- ?Hdb, <- ?Hmem; reflexivity ].

(** In both stores the alerts are exactly those of the flagged log
    entries, in the same order, and every operation keeps it so,
    whatever the driver does. *)
Theorem stores_stay_consistent (msg reply mood role content : string)
  (alert refused : bool) (limit : Z) (w : world) :
  stores_consistent w ->
  stores_consistent (snd (log_event msg reply mood alert refused w))
  /\ stores_consistent (snd (memory_add role content w))
  /\ stores_consistent (snd (memory_fetch limit w))
  /\ stores_consistent (snd (get_alerts limit w))
  /\ stores_consistent (snd (get_alerts_count w))
  /\ stores_consistent (snd (get_logs limit w)).
Proof.
  intros Hcons. repeat split; run; consistent_branch w.
Qed.

(** *** Reading the memory back *)

Lemma rev_firstn_rev {A : Type} (n : nat) (l : list A) :
  rev (firstn n (rev l)) = newest_ascending n l.
Proof.
  unfold newest_ascending. now rewrite firstn_rev, rev_involutive.
Qed.

Lemma newest_ascending_last {A : Type} (n : nat) (l : list A) (x : A) :
  0 < n ->
  newest_ascending n (l ++ [x]) = newest_ascending (n - 1) l ++ [x].
Proof.
  intros Hpos. unfold newest_ascending.
  rewrite length_app. simpl length.
  replace (length l + 1 - n) with (length l - (n - 1)) by lia.
  rewrite skipn_app.
  replace (length l - (n - 1) - length l) with 0 by lia.
  reflexivity.
Qed.

Lemma memory_push_ends (e : memory_entry) (mem : list memory_entry) :
  exists kept, memory_push e mem = kept ++ [e].
Proof.
  unfold memory_push.
  destruct (Nat.ltb_spec 50 (length (mem ++ [e]))) as [Hfull | _].
  - destruct mem as [| m mem]; [simpl in Hfull; lia |].
    exists mem. reflexivity.
  - exists mem. reflexivity.
Qed.

Lemma memory_fetch_volatile (limit : Z) (w : world) :
  use_db w = false ->
  memory_fetch limit w = (Ok (last_slice limit (memory_mem w)), w).
Proof.
  intros Hdb. unfold memory_fetch, db_ok, bind. now rewrite Hdb.
Qed.

Lemma memory_fetch_durable (limit : Z) (w : world)
  (rows : list memory_row) :
  (0 <= limit)%Z ->
  use_db w = true ->
  (forall k, faults w k = false) ->
  t_memory (db w) = Some rows ->
  fst (memory_fetch limit w)
  = Ok (map (fun r => mkMemory (row_role r) (row_content r))
            (newest_ascending (Z.to_nat limit) rows)).
Proof.
  intros Hpos Hdb Hquiet Hrows. quiet_run w Hdb Hquiet;
    try match goal with
        | H : (limit <? 0)%Z = true |- _ => apply Z.ltb_lt in H; lia
        end;
    try discriminate Hrows;
    injection Hrows as ->; now rewrite rev_firstn_rev.
Qed.

Lemma memory_add_volatile (role content : string) (w : world) :
  use_db w = false ->
  memory_add role content w
  = (Ok tt,
     set_memory_mem (memory_push (mkMemory role content) (memory_mem w)) w).
Proof.
  intros Hdb. unfold memory_add, db_ok, bind. now rewrite Hdb.
Qed.

Lemma memory_add_durable (role content : string) (w : world) :
  use_db w = true ->
  (forall k, faults w k = false) ->
  fst (memory_add role content w) = Ok tt
  /\ use_db (snd (memory_add role content w)) = true
  /\ (forall k, faults (snd (memory_add role content w)) k = false)
  /\ t_memory (db (snd (memory_add role content w)))
     = Some (table_rows (t_memory (db w))
             ++ [mkMemoryRow (clock w (reads w)) role content]).
Proof.
  intros Hdb Hquiet. quiet_run w Hdb Hquiet;
    known_tables w; repeat split; auto.
Qed.

(** [memory_fetch] returns the newest entries oldest first: the tail of
    [memory_mem] when no database is configured, the last rows of the
    table [memory] when the database is in use and its driver does not
    fail. *)
Theorem memory_fetch_chronological (limit : Z) (w : world) :
  (0 < limit)%Z ->
  (use_db w = false ->
   memory_fetch limit w
   = (Ok (newest_ascending (Z.to_nat limit) (memory_mem w)), w))
  /\ (forall rows,
        use_db w = true ->
        (forall k, faults w k = false) ->
        t_memory (db w) = Some rows ->
        fst (memory_fetch limit w)
        = Ok (map (fun r => mkMemory (row_role r) (row_content r))
                  (newest_ascending (Z.to_nat limit) rows))).
Proof.
  intros Hpos. split.
  - intros Hdb. rewrite (memory_fetch_volatile _ _ Hdb).
    now rewrite (last_slice_positive _ _ Hpos).
  - intros rows Hdb Hquiet Hrows.
    apply memory_fetch_durable; auto. lia.
Qed.

(** What [memory_add] stores, [memory_fetch] returns last: in stable
    conditions (no database configured, or a database whose driver
    does not fail) a fetch with a positive limit that follows an add
    ends with the entry added. *)
Theorem memory_add_then_fetch (role content : string) (limit : Z)
  (w : world) :
  (0 < limit)%Z ->
  use_db w = false \/ (use_db w = true /\ forall k, faults w k = false) ->
  exists earlier,
    fst (memory_fetch limit (snd (memory_add role content w)))
    = Ok (earlier ++ [mkMemory role content]).
Proof.
  intros Hpos [Hdb | [Hdb Hquiet]].
  - rewrite (memory_add_volatile _ _ _ Hdb). cbn [snd].
    rewrite memory_fetch_volatile by exact Hdb. cbn [fst memory_mem set_memory_mem].
    destruct (memory_push_ends (mkMemory role content) (memory_mem w))
      as [kept ->].
    rewrite (last_slice_positive _ _ Hpos).
    change (skipn (length (kept ++ [mkMemory role content])
                   - Z.to_nat limit) (kept ++ [mkMemory role content]))
      with (newest_ascending (Z.to_nat limit)
              (kept ++ [mkMemory role content])).
    rewrite newest_ascending_last by lia.
    eexists. reflexivity.
  - destruct (memory_add_durable role content w Hdb Hquiet)
      as [_ [Hdb' [Hquiet' Hrows']]].
    rewrite (memory_fetch_durable limit _ _ (Z.lt_le_incl _ _ Hpos)
               Hdb' Hquiet' Hrows').
    rewrite newest_ascending_last by lia.
    rewrite map_app. eexists. reflexivity.
Qed.

(** [memory_add] never stores the entry twice and never touches the
    logs or alerts: either the entry is pushed on [memory_mem] and the
    database is as before, or [memory_mem] is as before and the
    database is unchanged or has the row appended to its table
    [memory]. *)
Theorem memory_add_one_store (role content : string) (w : world) :
  let w' := snd (memory_add role content w) in
  logs_mem w' = logs_mem w
  /\ alerts_mem w' = alerts_mem w
  /\ ((memory_mem w' = memory_push (mkMemory role content) (memory_mem w)
       /\ db w' = db w)
      \/ (memory_mem w' = memory_mem w
          /\ (db w' = db w
              \/ exists ts,
                   db w' = mkDatabase
                             (t_logs (db w)) (t_alerts (db w))
                             (Some (table_rows (t_memory (db w))
                                    ++ [mkMemoryRow ts role content]))))).
Proof.
  cbv zeta. run; known_tables w; repeat split;
    first [ left; split; reflexivity
          | right; split; [reflexivity |];
            first [ left; reflexivity | right; eexists; reflexivity ] ].
Qed.

(** *** Listing and counting alerts *)

(** [get_alerts] lists the newest alerts, newest first, for every limit
    n >= 1: those of [alerts_mem] when no database is configured, those
    of the table [alerts] when the database is in use and its driver
    does not fail. *)
Theorem get_alerts_newest_first (limit : Z) (w : world) :
  (0 < limit)%Z ->
  (use_db w = false ->
   get_alerts limit w
   = (Ok (newest_first (Z.to_nat limit) (alerts_mem w)), w))
  /\ (forall rows,
        use_db w = true ->
        (forall k, faults w k = false) ->
        t_alerts (db w) = Some rows ->
        fst (get_alerts limit w) = Ok (newest_first (Z.to_nat limit) rows)).
Proof.
  intros Hpos. split.
  - intros Hdb. unfold get_alerts, db_ok, bind. rewrite Hdb. simpl.
    now rewrite (rev_last_slice _ _ Hpos).
  - intros rows Hdb Hquiet Hrows. quiet_run w Hdb Hquiet;
      try match goal with
          | H : (limit <? 0)%Z = true |- _ => apply Z.ltb_lt in H; lia
          end;
      try discriminate Hrows;
      injection Hrows as ->; reflexivity.
Qed.

Lemma get_alerts_count_volatile (w : world) :
  use_db w = false ->
  fst (get_alerts_count w) = Ok (length (alerts_mem w)).
Proof.
  intros Hdb. unfold get_alerts_count, db_ok, bind. now rewrite Hdb.
Qed.

Lemma get_alerts_count_durable (w : world) (rows : list alert_entry) :
  use_db w = true ->
  (forall k, faults w k = false) ->
  t_alerts (db w) = Some rows ->
  fst (get_alerts_count w) = Ok (length rows).
Proof.
  intros Hdb Hquiet Hrows. quiet_run w Hdb Hquiet;
    try discriminate Hrows; injection Hrows as ->; reflexivity.
Qed.

Lemma log_event_volatile_state (msg reply mood : string)
  (alert refused : bool) (w : world) :
  use_db w = false ->
  use_db (snd (log_event msg reply mood alert refused w)) = false
  /\ alerts_mem (snd (log_event msg reply mood alert refused w))
     = alerts_mem w
       ++ (if alert then [mkAlert (clock w (reads w)) mood msg] else []).
Proof.
  intros Hdb. unfold log_event, db_ok, bind. rewrite Hdb. simpl.
  destruct alert; simpl; rewrite ?app_nil_r; auto.
Qed.

Lemma log_event_durable_state (msg reply mood : string)
  (alert refused : bool) (w : world) :
  use_db w = true ->
  (forall k, faults w k = false) ->
  use_db (snd (log_event msg reply mood alert refused w)) = true
  /\ (forall k, faults (snd (log_event msg reply mood alert refused w)) k
                = false)
  /\ t_alerts (db (snd (log_event msg reply mood alert refused w)))
     = Some (table_rows (t_alerts (db w))
             ++ (if alert then [mkAlert (clock w (reads w)) mood msg]
                 else [])).
Proof.
  intros Hdb Hquiet. quiet_run w Hdb Hquiet;
    known_tables w; rewrite ?app_nil_r; repeat split; auto.
Qed.

(** In stable conditions the count of alerts read after [log_event] is
    the number of alerts the answering store held before, plus one
    exactly when the entry is flagged as an alert. *)
Theorem alerts_count_after_log_event (msg reply mood : string)
  (alert refused : bool) (w : world) :
  use_db w = false \/ (use_db w = true /\ forall k, faults w k = false) ->
  fst (get_alerts_count (snd (log_event msg reply mood alert refused w)))
  = Ok (length (if use_db w then table_rows (t_alerts (db w))
                else alerts_mem w)
        + (if alert then 1 else 0)).
Proof.
  intros [Hdb | [Hdb Hquiet]]; rewrite Hdb.
  - destruct (log_event_volatile_state msg reply mood alert refused w Hdb)
      as [Hdb' Halerts].
    rewrite (get_alerts_count_volatile _ Hdb'), Halerts, length_app.
    now destruct alert.
  - destruct (log_event_durable_state msg reply mood alert refused w
                Hdb Hquiet) as [Hdb' [Hquiet' Halerts]].
    rewrite (get_alerts_count_durable _ _ Hdb' Hquiet' Halerts), length_app.
    now destruct alert.
Qed.

(** *** Limits that are not positive *)

Lemma last_slice_nonpositive {A : Type} (limit : Z) (l : list A) :
  (limit <= 0)%Z ->
  last_slice limit l = skipn (Z.to_nat (- limit)) l.
Proof.
  intros Hle. unfold last_slice, slice_from.
  destruct (Z.ltb_spec (- limit) 0) as [Hneg | _]; [lia |].
  destruct (Z.le_ge_cases (- limit) (Z.of_nat (length l))) as [Hin | Hout].
  - now rewrite Z.min_l by exact Hin.
  - rewrite Z.min_r by exact Hout. rewrite Nat2Z.id.
    rewrite skipn_all. symmetry. apply skipn_all2. lia.
Qed.

(** With a limit of zero or below the volatile listing does not return
    "at most limit" entries: it returns every log entry but the -limit
    oldest, newest first, so the limit 0 returns them all.  A negative
    limit is refused by the database, so the listing then answers from
    [logs_mem] in every case; with the limit 0 a database whose driver
    does not fail returns no row. *)
Theorem get_logs_nonpositive_limit (limit : Z) (w : world) :
  (limit <= 0)%Z ->
  (use_db w = false ->
   get_logs limit w
   = (Ok (rev (skipn (Z.to_nat (- limit)) (logs_mem w))), w))
  /\ ((limit < 0)%Z ->
      fst (get_logs limit w)
      = Ok (rev (skipn (Z.to_nat (- limit)) (logs_mem w))))
  /\ (forall rows,
        limit = 0%Z ->
        use_db w = true ->
        (forall k, faults w k = false) ->
        t_logs (db w) = Some rows ->
        fst (get_logs limit w) = Ok []).
Proof.
  intros Hle. repeat split.
  - intros Hdb. unfold get_logs, db_ok, bind. rewrite Hdb. simpl.
    unfold get_logs_local. now rewrite (last_slice_nonpositive _ _ Hle).
  - intros Hneg. run;
      try match goal with
          | H : (limit <? 0)%Z = false |- _ => apply Z.ltb_ge in H; lia
          end;
      now rewrite (last_slice_nonpositive _ _ Hle).
  - intros rows -> Hdb Hquiet Hrows. quiet_run w Hdb Hquiet;
      try discriminate; reflexivity.
Qed.


End MainFacts.

(** ** The endpoint [/chat] *)

Section ChatFacts.

Import Main Brain Reference.
Local Open Scope list_scope.
Context {ops : StrOps} {rp : Repr}.


End ChatFacts.

(** ** The statements at concrete inputs *)

Section Instances.

Import Main Brain Reference.
Local Open Scope list_scope.

(** C5 on a text holding both terms and a "??". *)
Lemma C5_witness :
  alert (run_think cfg_no_key unreachable
           (Some "  Un MINEUR, contenu Explicit ??  ") []) = true
  /\ mood (run_think cfg_no_key unreachable
             (Some "  Un MINEUR, contenu Explicit ??  ") []) = "alert".
Proof.
  apply (@C5_minor_sexual_dominates ascii_ops atom_repr).
  - reflexivity.
  - reflexivity.
  - right; right; reflexivity.
Defined.

(** C6 fails on a text that also matches the minor-and-sexual rule. *)
Lemma C6_counterexample :
  contains "??" (@normalise ascii_ops (Some "mineur sexe ??")) = true
  /\ ~ (mood (run_think cfg_no_key unreachable (Some "mineur sexe ??") [])
        = "notice"
        /\ alert (run_think cfg_no_key unreachable (Some "mineur sexe ??") [])
           = true
        /\ spark (run_think cfg_no_key unreachable (Some "mineur sexe ??") [])
           = true).
Proof.
  split; [reflexivity |].
  intros [Hmood _]. vm_compute in Hmood. discriminate Hmood.
Defined.

(** C6, amended, on a text with "?!" that ends in "?". *)
Lemma C6_witness :
  (alert (run_think cfg_no_key unreachable (Some "Vraiment ?! Ok ?") [])
   = true
   /\ alert (run_think cfg_with_key unreachable (Some "Vraiment ?! Ok ?") [])
      = true)
  /\ mood (run_think cfg_no_key unreachable (Some "Vraiment ?! Ok ?") [])
     = "notice"
  /\ spark (run_think cfg_no_key unreachable (Some "Vraiment ?! Ok ?") [])
     = true
  /\ mood (run_think cfg_with_key unreachable (Some "Vraiment ?! Ok ?") [])
     = "notice"
  /\ spark (run_think cfg_with_key unreachable (Some "Vraiment ?! Ok ?") [])
     = true.
Proof.
  destruct (@C6_insistent_notice ascii_ops atom_repr cfg_no_key cfg_with_key
              unreachable (Some "Vraiment ?! Ok ?") []
              eq_refl eq_refl eq_refl (or_intror eq_refl)) as [Halert Hnotice].
  split; [exact Halert | exact (Hnotice eq_refl)].
Defined.

(** C9 on a plain question. *)
Lemma C9_witness :
  alert (run_think cfg_no_key unreachable (Some "Quelle heure est-il ?") [])
  = member (mood (run_think cfg_no_key unreachable
                    (Some "Quelle heure est-il ?") [])) ["alert"; "notice"]
  /\ spark (run_think cfg_no_key unreachable (Some "Quelle heure est-il ?") [])
     = member (mood (run_think cfg_no_key unreachable
                       (Some "Quelle heure est-il ?") []))
              ["analyze"; "notice"]
  /\ sources (run_think cfg_no_key unreachable
                (Some "Quelle heure est-il ?") []) = JArr [].
Proof.
  apply (@C9_single_pass_flags ascii_ops atom_repr). reflexivity.
Defined.

(** C10 on [None] and on the empty string. *)
Lemma C10_witness :
  run_think cfg_no_key unreachable None []
  = mkDecision "Compris." "good" false false (JArr [])
  /\ run_think cfg_no_key unreachable (Some "") []
     = mkDecision "Compris." "good" false false (JArr []).
Proof.
  split.
  - apply (@C10_empty_message_default ascii_ops atom_repr);
      [reflexivity | reflexivity | reflexivity | left; reflexivity].
  - apply (@C10_empty_message_default ascii_ops atom_repr);
      [reflexivity | reflexivity | reflexivity | right; reflexivity].
Defined.

(** C2 fails on a greeting and on a refused question. *)
Lemma C2_counterexample :
  run_think cfg_with_key unreachable (Some "Bonjour") []
  <> run_think cfg_no_key unreachable (Some "Bonjour") []
  /\ run_think cfg_with_key unreachable (Some "mineur sexe ?") []
     <> run_think cfg_no_key unreachable (Some "mineur sexe ?") [].
Proof.
  split; intros Heq; vm_compute in Heq; discriminate Heq.
Defined.

(** C2, amended, on an insistent text. *)
Lemma C2_witness :
  run_think cfg_with_key unreachable (Some "Tu es certain ??") []
  = run_think cfg_no_key unreachable (Some "Tu es certain ??") [].
Proof.
  apply (proj2 (@C2_two_pass_agreement ascii_ops atom_repr
                  cfg_no_key cfg_with_key unreachable
                  (Some "Tu es certain ??") [] eq_refl eq_refl eq_refl)).
  reflexivity.
Defined.

(** C7 on an object whose only field is an unknown mood. *)
Lemma C7_witness :
  exists d,
    @normalize atom_repr (JObj [("mood", JStr "furious")]) = Ok d
    /\ mood d = "done" /\ alert d = false /\ spark d = false
    /\ reply d = "Compris." /\ sources d = JArr [].
Proof.
  destruct (@C7_normalize_total_and_clamped ascii_ops atom_repr
              [("mood", JStr "furious")])
    as [d [Hnorm [_ [[Hdone [_ Hspark]]
                       [Hreply [_ [Halert [Hsources _]]]]]]]].
  exists d. split; [exact Hnorm |].
  split; [exact (Hdone eq_refl) |].
  split; [exact (Halert eq_refl) |].
  split; [exact (Hspark eq_refl) |].
  split; [exact (Hreply eq_refl) | exact (Hsources eq_refl)].
Defined.

(** C3 fails on both backends after two log entries. *)
Lemma C3_counterexample :
  let e1 := mkLog 0 "good" "first" "r1" false false in
  let e2 := mkLog 1 "good" "second" "r2" false false in
  let volatile := after_two_logs (start_world false quiet) in
  let durable := after_two_logs (start_world true quiet) in
  (logs_mem volatile = [e1; e2]
   /\ fst (get_logs 2 volatile) = Ok [e2; e1]
   /\ fst (get_logs 2 volatile) <> Ok (newest_ascending 2 [e1; e2]))
  /\ (t_logs (db durable) = Some [e1; e2]
      /\ fst (get_logs 2 durable) = Ok [e2; e1]
      /\ fst (get_logs 2 durable) <> Ok (newest_ascending 2 [e1; e2])).
Proof.
  cbv zeta. repeat split; try reflexivity;
    intros Heq; vm_compute in Heq; discriminate Heq.
Defined.

(** C3, amended, on both backends after two log entries. *)
Lemma C3_witness :
  let e1 := mkLog 0 "good" "first" "r1" false false in
  let e2 := mkLog 1 "good" "second" "r2" false false in
  let volatile := after_two_logs (start_world false quiet) in
  let durable := after_two_logs (start_world true quiet) in
  get_logs 2 volatile = (Ok (newest_first 2 [e1; e2]), volatile)
  /\ fst (get_logs 2 durable) = Ok (newest_first 2 [e1; e2]).
Proof.
  cbv zeta. split.
  - apply (C3_get_logs_newest_first 2
             (after_two_logs (start_world false quiet)) eq_refl).
    reflexivity.
  - apply (C3_get_logs_newest_first 2
             (after_two_logs (start_world true quiet)) eq_refl);
      reflexivity.
Defined.

(** C4 fails when the [INSERT] raises and when the table is missing. *)
Lemma C4_counterexample :
  ~ releases_connection (log_event_db "m" "r" "good" false false)
      (start_world true (fails_at 4))
  /\ ~ releases_connection (memory_fetch_db 8) (start_world true quiet).
Proof.
  split; intros Heq; vm_compute in Heq; discriminate Heq.
Defined.

(** C4, amended, on a run without failure and on a failing
    [INSERT]. *)
Lemma C4_witness :
  releases_connection (log_event_db "m" "r" "alert" true false)
    (start_world true quiet)
  /\ open_conns (snd (log_event_db "m" "r" "alert" true false
                        (start_world true (fails_at 4)))) = 1.
Proof.
  destruct (C4_connection_released_on_return "m" "r" "alert" "" ""
              true false 8) as [[Hscoped Hleaks] _].
  split.
  - apply Hscoped. exists tt. reflexivity.
  - apply (Hleaks (start_world true (fails_at 4)) OperationalError);
      reflexivity.
Defined.

(** C8 on sixty distinct entries. *)
Lemma C8_witness :
  fst (memory_add_all sixty_entries (start_world false quiet)) = Ok tt
  /\ memory_mem (snd (memory_add_all sixty_entries
                        (start_world false quiet)))
     = skipn 10 sixty_entries
  /\ length (memory_mem (snd (memory_add_all sixty_entries
                                (start_world false quiet)))) = 50.
Proof.
  apply (C8_volatile_memory_bound (start_world false quiet) sixty_entries);
    reflexivity.
Defined.

(** *** The further properties at concrete inputs *)


Lemma db_ok_exact_witness :
  fst (db_ok (start_world false quiet)) = Ok false
  /\ snd (db_ok (start_world false quiet)) = start_world false quiet.
Proof.
  destruct (db_ok_exact (start_world false quiet)) as [Hanswer Hsame].
  split; [exact Hanswer | exact (Hsame eq_refl)].
Defined.

Lemma log_event_one_store_witness :
  logs_mem (snd (log_event "m" "r" "alert" true false
                   (start_world false quiet)))
  = [mkLog 0 "alert" "m" "r" true false]
  /\ db (snd (log_event "m" "r" "alert" true false
                (start_world true quiet)))
     = mkDatabase (Some [mkLog 0 "alert" "m" "r" true false])
                  (Some [mkAlert 0 "alert" "m"]) None.
Proof.
  split.
  - apply (log_event_one_store "m" "r" "alert" true false
             (start_world false quiet)). reflexivity.
  - apply (log_event_one_store "m" "r" "alert" true false
             (start_world true quiet)); reflexivity.
Defined.

Lemma stores_stay_consistent_witness :
  stores_consistent
    (snd (log_event "m" "r" "alert" true false (start_world true quiet))).
Proof.
  apply (stores_stay_consistent "m" "r" "alert" "user" "c" true false 5
           (start_world true quiet)).
  split; reflexivity.
Defined.

Lemma memory_fetch_chronological_witness :
  memory_fetch 8 (snd (memory_add_all sixty_entries
                         (start_world false quiet)))
  = (Ok (skipn 52 sixty_entries),
     snd (memory_add_all sixty_entries (start_world false quiet))).
Proof.
  apply (memory_fetch_chronological 8
           (snd (memory_add_all sixty_entries (start_world false quiet)))
           eq_refl).
  reflexivity.
Defined.

Lemma memory_add_then_fetch_witness :
  (exists earlier,
     fst (memory_fetch 3 (snd (memory_add "user" "salut"
                                 (start_world false quiet))))
     = Ok (earlier ++ [mkMemory "user" "salut"]))
  /\ (exists earlier,
        fst (memory_fetch 3 (snd (memory_add "user" "salut"
                                    (start_world true quiet))))
        = Ok (earlier ++ [mkMemory "user" "salut"])).
Proof.
  split.
  - apply (memory_add_then_fetch "user" "salut" 3
             (start_world false quiet) eq_refl).
    left. reflexivity.
  - apply (memory_add_then_fetch "user" "salut" 3
             (start_world true quiet) eq_refl).
    right. split; reflexivity.
Defined.

Lemma get_alerts_newest_first_witness :
  get_alerts 1 (snd (log_event "m" "r" "alert" true false
                       (start_world false quiet)))
  = (Ok [mkAlert 0 "alert" "m"],
     snd (log_event "m" "r" "alert" true false (start_world false quiet))).
Proof.
  apply (get_alerts_newest_first 1
           (snd (log_event "m" "r" "alert" true false
                   (start_world false quiet))) eq_refl).
  reflexivity.
Defined.

Lemma alerts_count_after_log_event_witness :
  fst (get_alerts_count (snd (log_event "m" "r" "alert" true false
                                (start_world false quiet)))) = Ok 1
  /\ fst (get_alerts_count (snd (log_event "m" "r" "good" false false
                                   (start_world true quiet)))) = Ok 0.
Proof.
  split.
  - apply (alerts_count_after_log_event "m" "r" "alert" true false
             (start_world false quiet)).
    left. reflexivity.
  - apply (alerts_count_after_log_event "m" "r" "good" false false
             (start_world true quiet)).
    right. split; reflexivity.
Defined.

Lemma get_logs_nonpositive_limit_witness :
  fst (get_logs 0 (after_two_logs (start_world false quiet)))
  = Ok [mkLog 1 "good" "second" "r2" false false;
        mkLog 0 "good" "first" "r1" false false]
  /\ fst (get_logs (-1) (after_two_logs (start_world false quiet)))
     = Ok [mkLog 1 "good" "second" "r2" false false]
  /\ fst (get_logs 0 (after_two_logs (start_world true quiet))) = Ok [].
Proof.
  split; [| split].
  - apply (f_equal fst
             (proj1 (get_logs_nonpositive_limit 0
                       (after_two_logs (start_world false quiet))
                       (Z.le_refl 0)) eq_refl)).
  - apply (proj1 (proj2 (get_logs_nonpositive_limit (-1)
                           (after_two_logs (start_world false quiet))
                           ltac:(discriminate)))).
    reflexivity.
  - apply (proj2 (proj2 (get_logs_nonpositive_limit 0
                           (after_two_logs (start_world true quiet))
                           (Z.le_refl 0)))
             [mkLog 0 "good" "first" "r1" false false;
              mkLog 1 "good" "second" "r2" false false]);
      reflexivity.
Defined.


Lemma think_uses_last_ten_turns_witness :
  run_think cfg_with_key unreachable (Some "Bonjour") twelve_turns
  = run_think cfg_with_key unreachable (Some "Bonjour")
      (skipn 2 twelve_turns).
Proof.
  apply (@think_uses_last_ten_turns ascii_ops atom_repr cfg_with_key
           unreachable (Some "Bonjour") (firstn 2 twelve_turns)
           (skipn 2 twelve_turns)).
  reflexivity.
Defined.

Lemma think_payload_not_object_witness :
  run_think cfg_with_key (answers (JArr [JStr "alert"]))
    (Some "Tout va bien ?") []
  = rules_two_pass "tout va bien ?".
Proof.
  apply (@think_payload_not_object ascii_ops atom_repr cfg_with_key
           (answers (JArr [JStr "alert"])) (Some "Tout va bien ?") []
           (JArr [JStr "alert"]));
    [reflexivity | reflexivity | intros fields Heq; discriminate Heq].
Defined.

Lemma think_payload_decides_witness :
  alert (run_think cfg_with_key (answers (JObj [("reply", JStr "Voici.")]))
           (Some "mineur sexe") []) = false.
Proof.
  apply (@think_payload_decides ascii_ops atom_repr cfg_with_key
           (answers (JObj [("reply", JStr "Voici.")]))
           (Some "mineur sexe") [] [("reply", JStr "Voici.")]);
    reflexivity.
Defined.

End Instances.
